(** * The order-form mediator of [lab10_mediator.py]

    A shallow embedding of the mediator pattern in [src/lab10_mediator.py]:
    six form components ([DatePicker], [TimeSlots], [RecipientCheckbox],
    two [RecipientInput]s, [PickupCheckbox]) and the [OrderFormMediator]
    that coordinates them.

    Python objects are mutable and shared; the whole object graph of one
    form is a single record [Form], and every method is a computation that
    takes the current graph and gives back an outcome (a value or a raised
    exception), the graph after the call and the trace of what happened
    during the call: the lines written by [print] and, as ghost
    instrumentation, the method entries. *)

From Stdlib Require Import Bool List String Ascii Arith Lia.
From Stdlib Require Import DecimalString.
Import ListNotations.

Local Open Scope string_scope.
Local Open Scope list_scope.

(** ** Values *)

(** [datetime.date]; the program only formats it with [str]. *)
Record date := mkdate { year : nat; month : nat; day : nat }.

Definition digits (n : nat) : string :=
  NilEmpty.string_of_uint (Nat.to_uint n).

Fixpoint zeros (k : nat) : string :=
  match k with
  | O => ""
  | S k' => String "0" (zeros k')
  end.

(** [%0<width>d] *)
Definition zero_pad (width n : nat) : string :=
  let s := digits n in
  zeros (width - String.length s) ++ s.

(** [date.__str__], that is [isoformat]: [%04d-%02d-%02d]. *)
Definition str_date (d : date) : string :=
  zero_pad 4 (year d) ++ "-" ++ zero_pad 2 (month d) ++ "-" ++ zero_pad 2 (day d).

(** [str] of a Python [bool]. *)
Definition str_bool (b : bool) : string :=
  if b then "True" else "False".

(** ** Objects *)

(** The one mediator object of a form; a component's [_mediator] attribute
    is [None] or a reference to it. *)
Inductive MediatorRef : Set := order_form_mediator.

(** [BaseComponent.__init__]: the attributes every component has. *)
Record BaseComponent := mkBase {
  mediator : option MediatorRef;
  is_active : bool
}.

Definition BaseComponent_init (m : option MediatorRef) : BaseComponent :=
  {| mediator := m; is_active := true |}.

(** [DatePicker] and [TimeSlots] add no attribute. *)
Record DatePicker := mkDatePicker { dp_base : BaseComponent }.
Record TimeSlots := mkTimeSlots { ts_base : BaseComponent }.

(** [RecipientCheckbox] and [PickupCheckbox] get their [is_checked]
    attribute only in [toggle]; before the first toggle the attribute does
    not exist, which is [None] here. *)
Record RecipientCheckbox := mkRecipientCheckbox {
  rc_base : BaseComponent;
  rc_is_checked : option bool
}.

Record PickupCheckbox := mkPickupCheckbox {
  pc_base : BaseComponent;
  pc_is_checked : option bool
}.

Record RecipientInput := mkRecipientInput {
  ri_base : BaseComponent;
  field_name : string;
  is_visible : bool;
  is_required : bool
}.

Definition DatePicker_init (m : option MediatorRef) : DatePicker :=
  {| dp_base := BaseComponent_init m |}.

Definition TimeSlots_init (m : option MediatorRef) : TimeSlots :=
  {| ts_base := BaseComponent_init m |}.

Definition RecipientCheckbox_init (m : option MediatorRef) : RecipientCheckbox :=
  {| rc_base := BaseComponent_init m; rc_is_checked := None |}.

Definition PickupCheckbox_init (m : option MediatorRef) : PickupCheckbox :=
  {| pc_base := BaseComponent_init m; pc_is_checked := None |}.

Definition RecipientInput_init (m : option MediatorRef) (name : string)
  : RecipientInput :=
  {| ri_base := BaseComponent_init m;
     field_name := name;
     is_visible := false;
     is_required := false |}.

(** The object graph of one form: the six objects the mediator's private
    attributes [_date_picker], [_time_slots], [_recipient_cb],
    [_name_input], [_phone_input] and [_pickup_cb] refer to. *)
Record Form := mkForm {
  date_picker : DatePicker;
  time_slots : TimeSlots;
  recipient_cb : RecipientCheckbox;
  name_input : RecipientInput;
  phone_input : RecipientInput;
  pickup_cb : PickupCheckbox
}.

(** Names of the six objects of a form, in the order of the mediator's
    attributes: [_date_picker], [_time_slots], [_recipient_cb],
    [_name_input], [_phone_input], [_pickup_cb].  They are six distinct
    objects, as [__main__] builds them. *)
Inductive Component : Set :=
| DateSelector
| TimeSlotList
| RecipientToggle
| NameField
| PhoneField
| PickupToggle.

(** The two [RecipientInput] objects. *)
Inductive Field : Set := Name | Phone.

Definition component_of_field (f : Field) : Component :=
  match f with
  | Name => NameField
  | Phone => PhoneField
  end.

(** [self.__class__.__name__] *)
Definition class_name (c : Component) : string :=
  match c with
  | DateSelector => "DatePicker"
  | TimeSlotList => "TimeSlots"
  | RecipientToggle => "RecipientCheckbox"
  | NameField | PhoneField => "RecipientInput"
  | PickupToggle => "PickupCheckbox"
  end.

Definition base (c : Component) (w : Form) : BaseComponent :=
  match c with
  | DateSelector => dp_base (date_picker w)
  | TimeSlotList => ts_base (time_slots w)
  | RecipientToggle => rc_base (recipient_cb w)
  | NameField => ri_base (name_input w)
  | PhoneField => ri_base (phone_input w)
  | PickupToggle => pc_base (pickup_cb w)
  end.

Definition field (f : Field) (w : Form) : RecipientInput :=
  match f with
  | Name => name_input w
  | Phone => phone_input w
  end.

(** *** Attribute assignment *)

Definition with_ri_base (b : BaseComponent) (r : RecipientInput) : RecipientInput :=
  {| ri_base := b; field_name := field_name r;
     is_visible := is_visible r; is_required := is_required r |}.

Definition with_is_visible (v : bool) (r : RecipientInput) : RecipientInput :=
  {| ri_base := ri_base r; field_name := field_name r;
     is_visible := v; is_required := is_required r |}.

Definition with_is_required (v : bool) (r : RecipientInput) : RecipientInput :=
  {| ri_base := ri_base r; field_name := field_name r;
     is_visible := is_visible r; is_required := v |}.

Definition with_field (f : Field) (r : RecipientInput) (w : Form) : Form :=
  match f with
  | Name =>
      {| date_picker := date_picker w; time_slots := time_slots w;
         recipient_cb := recipient_cb w; name_input := r;
         phone_input := phone_input w; pickup_cb := pickup_cb w |}
  | Phone =>
      {| date_picker := date_picker w; time_slots := time_slots w;
         recipient_cb := recipient_cb w; name_input := name_input w;
         phone_input := r; pickup_cb := pickup_cb w |}
  end.

Definition with_recipient_cb (r : RecipientCheckbox) (w : Form) : Form :=
  {| date_picker := date_picker w; time_slots := time_slots w;
     recipient_cb := r; name_input := name_input w;
     phone_input := phone_input w; pickup_cb := pickup_cb w |}.

Definition with_pickup_cb (p : PickupCheckbox) (w : Form) : Form :=
  {| date_picker := date_picker w; time_slots := time_slots w;
     recipient_cb := recipient_cb w; name_input := name_input w;
     phone_input := phone_input w; pickup_cb := p |}.

Definition with_base (c : Component) (b : BaseComponent) (w : Form) : Form :=
  match c with
  | DateSelector =>
      {| date_picker := {| dp_base := b |}; time_slots := time_slots w;
         recipient_cb := recipient_cb w; name_input := name_input w;
         phone_input := phone_input w; pickup_cb := pickup_cb w |}
  | TimeSlotList =>
      {| date_picker := date_picker w; time_slots := {| ts_base := b |};
         recipient_cb := recipient_cb w; name_input := name_input w;
         phone_input := phone_input w; pickup_cb := pickup_cb w |}
  | RecipientToggle =>
      with_recipient_cb
        {| rc_base := b; rc_is_checked := rc_is_checked (recipient_cb w) |} w
  | NameField => with_field Name (with_ri_base b (name_input w)) w
  | PhoneField => with_field Phone (with_ri_base b (phone_input w)) w
  | PickupToggle =>
      with_pickup_cb
        {| pc_base := b; pc_is_checked := pc_is_checked (pickup_cb w) |} w
  end.

(** ** Computations *)

Inductive Exn : Set := AttributeError.

(** The first argument of [Mediator.notify] is typed [object]: one of the
    form's own components, or any other object, of which the handler can
    only see whether it has an [is_checked] attribute and its value.  The
    other object is one with plain attributes; an object whose attribute
    lookup runs code of its own (a property that raises, say) is not
    represented. *)
Inductive Sender : Set :=
| from_component (c : Component)
| from_object (is_checked_attr : option bool).

(** Method entries, recorded as ghost events. *)
Inductive Call : Set :=
| call_set_active (c : Component) (status : bool)
| call_select_date (d : date)
| call_update_available_slots
| call_recipient_toggle (is_checked : bool)
| call_set_visibility (f : Field) (visible : bool)
| call_set_required (f : Field) (required : bool)
| call_pickup_toggle (is_checked : bool)
| call_notify (sender : Sender) (event : string).

Inductive Event : Set :=
| Print (line : string)
| Enter (c : Call).

Record Run (A : Type) := mkRun {
  outcome : Exn + A;
  heap : Form;
  trace : list Event
}.

Arguments mkRun {A} _ _ _.
Arguments outcome {A} _.
Arguments heap {A} _.
Arguments trace {A} _.

Definition M (A : Type) : Type := Form -> Run A.

Definition ret {A} (a : A) : M A :=
  fun w => mkRun (inr a) w [].

Definition raise {A} (e : Exn) : M A :=
  fun w => mkRun (inl e) w [].

Definition bind {A B} (m : M A) (k : A -> M B) : M B :=
  fun w =>
    let r := m w in
    match outcome r with
    | inl e => mkRun (inl e) (heap r) (trace r)
    | inr a =>
        let r' := k a (heap r) in
        mkRun (outcome r') (heap r') (trace r ++ trace r')
    end.

Notation "m ;; k" := (bind m (fun _ => k))
  (at level 61, right associativity).

Definition print (line : string) : M unit :=
  fun w => mkRun (inr tt) w [Print line].

Definition enter (c : Call) : M unit :=
  fun w => mkRun (inr tt) w [Enter c].

Definition modify (f : Form -> Form) : M unit :=
  fun w => mkRun (inr tt) (f w) [].

Definition read {A} (f : Form -> A) : M A :=
  fun w => mkRun (inr (f w)) w [].

Notation "x <- m ;; k" := (bind m (fun x => k))
  (at level 61, m at next level, right associativity).

(** ** Component methods *)

(** [BaseComponent.set_active] *)
Definition set_active (c : Component) (status : bool) : M unit :=
  enter (call_set_active c status) ;;
  modify (fun w =>
    with_base c {| mediator := mediator (base c w); is_active := status |} w) ;;
  let state := if status then "Активний" else "Неактивний" in
  print ("[" ++ class_name c ++ "]: Статус змінено на -> " ++ state).

(** [TimeSlots.update_available_slots] *)
Definition update_available_slots : M unit :=
  enter call_update_available_slots ;;
  active <- read (fun w => is_active (base TimeSlotList w)) ;;
  if negb active then ret tt
  else
    print ("[" ++ class_name TimeSlotList
           ++ "]: Список часових слотів оновлено відповідно до обраної дати.").

(** [RecipientInput.set_visibility] *)
Definition set_visibility (f : Field) (visible : bool) : M unit :=
  enter (call_set_visibility f visible) ;;
  modify (fun w => with_field f (with_is_visible visible (field f w)) w) ;;
  let state := if visible then "Відображено" else "Приховано" in
  name <- read (fun w => field_name (field f w)) ;;
  print ("[" ++ class_name (component_of_field f) ++ " - " ++ name ++ "]: "
         ++ state).

(** [RecipientInput.set_required] *)
Definition set_required (f : Field) (required : bool) : M unit :=
  enter (call_set_required f required) ;;
  modify (fun w => with_field f (with_is_required required (field f w)) w) ;;
  let state := if required then "Обов'язкове" else "Необов'язкове" in
  name <- read (fun w => field_name (field f w)) ;;
  print ("[" ++ class_name (component_of_field f) ++ " - " ++ name
         ++ "]: Поле тепер " ++ state).

(** ** The mediator *)

(** [getattr(sender, 'is_checked', False)] *)
Definition getattr_is_checked (sender : Sender) : M bool :=
  read (fun w =>
    match sender with
    | from_component RecipientToggle =>
        match rc_is_checked (recipient_cb w) with Some b => b | None => false end
    | from_component PickupToggle =>
        match pc_is_checked (pickup_cb w) with Some b => b | None => false end
    | from_component _ => false
    | from_object (Some b) => b
    | from_object None => false
    end).

(** [OrderFormMediator.notify] *)
Definition notify (sender : Sender) (event : string) : M unit :=
  enter (call_notify sender event) ;;
  if event =? "date_changed" then
    print "-> [Mediator]: Реакція на зміну дати. Оновлюю час..." ;;
    update_available_slots
  else if event =? "recipient_checkbox_toggled" then
    is_checked <- getattr_is_checked sender ;;
    print "-> [Mediator]: Реакція на зміну отримувача. Налаштовую поля введення..." ;;
    set_visibility Name is_checked ;;
    set_required Name is_checked ;;
    set_visibility Phone is_checked ;;
    set_required Phone is_checked
  else if event =? "pickup_toggled" then
    is_pickup <- getattr_is_checked sender ;;
    print "-> [Mediator]: Реакція на самовивіз. Блокую/Розблокую поля доставки..." ;;
    let delivery_active := negb is_pickup in
    set_active DateSelector delivery_active ;;
    set_active TimeSlotList delivery_active ;;
    set_active RecipientToggle delivery_active ;;
    if is_pickup then
      set_visibility Name false ;;
      set_visibility Phone false
    else ret tt
  else ret tt.

(** [self.mediator.notify(self, event)] inside a component: the attribute
    lookup on [None] raises. *)
Definition mediator_notify (self : Component) (event : string) : M unit :=
  m <- read (fun w => mediator (base self w)) ;;
  match m with
  | None => raise AttributeError
  | Some order_form_mediator => notify (from_component self) event
  end.

(** [OrderFormMediator.__init__]: keeps the six objects and assigns itself
    to the [mediator] property of each. *)
Definition OrderFormMediator_init
    (date_picker : DatePicker) (time_slots : TimeSlots)
    (recipient_cb : RecipientCheckbox)
    (name_input phone_input : RecipientInput)
    (pickup_cb : PickupCheckbox) : Form :=
  let set_mediator c w :=
    with_base c {| mediator := Some order_form_mediator;
                   is_active := is_active (base c w) |} w in
  let w := mkForm date_picker time_slots recipient_cb
                  name_input phone_input pickup_cb in
  let w := set_mediator DateSelector w in
  let w := set_mediator TimeSlotList w in
  let w := set_mediator RecipientToggle w in
  let w := set_mediator NameField w in
  let w := set_mediator PhoneField w in
  set_mediator PickupToggle w.

(** ** Event-emitting methods *)

(** [DatePicker.select_date] *)
Definition select_date (selected_date : date) : M unit :=
  enter (call_select_date selected_date) ;;
  active <- read (fun w => is_active (base DateSelector w)) ;;
  if negb active then
    print ("[" ++ class_name DateSelector
           ++ "]: Неможливо обрати дату, компонент неактивний.")
  else
    print ("[" ++ class_name DateSelector ++ "]: Обрано дату доставки "
           ++ str_date selected_date ++ ".") ;;
    mediator_notify DateSelector "date_changed".

(** [RecipientCheckbox.toggle] *)
Definition recipient_toggle (is_checked : bool) : M unit :=
  enter (call_recipient_toggle is_checked) ;;
  active <- read (fun w => is_active (base RecipientToggle w)) ;;
  if negb active then
    print ("[" ++ class_name RecipientToggle ++ "]: Чекбокс заблоковано.")
  else
    print ("[" ++ class_name RecipientToggle ++ "]: Стан змінено на "
           ++ str_bool is_checked ++ " ('Інша особа').") ;;
    modify (fun w =>
      with_recipient_cb {| rc_base := rc_base (recipient_cb w);
                           rc_is_checked := Some is_checked |} w) ;;
    mediator_notify RecipientToggle "recipient_checkbox_toggled".

(** [PickupCheckbox.toggle] *)
Definition pickup_toggle (is_checked : bool) : M unit :=
  enter (call_pickup_toggle is_checked) ;;
  print "--------------------------------------------------" ;;
  print ("[" ++ class_name PickupToggle ++ "]: Обрано опцію Самовивіз: "
         ++ str_bool is_checked) ;;
  modify (fun w =>
    with_pickup_cb {| pc_base := pc_base (pickup_cb w);
                      pc_is_checked := Some is_checked |} w) ;;
  mediator_notify PickupToggle "pickup_toggled".

(** ** The client code of [__main__] *)

(** The construction sequence of [__main__], for any two field names:
    the components are created without a mediator, then handed to the
    mediator's constructor. *)
Definition new_form (name phone : string) : Form :=
  OrderFormMediator_init
    (DatePicker_init None) (TimeSlots_init None)
    (RecipientCheckbox_init None)
    (RecipientInput_init None name) (RecipientInput_init None phone)
    (PickupCheckbox_init None).

Definition main_form : Form := new_form "Ім'я" "Телефон".

Definition main : M unit :=
  print "=== СЦЕНАРІЙ 1: Стандартне замовлення з вибором дати ===" ;;
  select_date (mkdate 2025 10 20) ;;
  print (String "010" "=== СЦЕНАРІЙ 2: Замовлення для іншої особи ===") ;;
  recipient_toggle true ;;
  print (String "010" "=== СЦЕНАРІЙ 3: Користувач передумав і обрав Самовивіз ===") ;;
  pickup_toggle true ;;
  print (String "010" "=== СЦЕНАРІЙ 4: Спроба змінити дату при обраному Самовивозі ===") ;;
  select_date (mkdate 2025 10 25).

(** ** Sequences of operations *)

(** The methods a host of the form can call on the components. *)
Inductive Op : Set :=
| op_select_date (d : date)
| op_recipient_toggle (is_checked : bool)
| op_pickup_toggle (is_checked : bool)
| op_set_active (c : Component) (status : bool)
| op_set_visibility (f : Field) (visible : bool)
| op_set_required (f : Field) (required : bool)
| op_update_available_slots.

Definition run_op (op : Op) : M unit :=
  match op with
  | op_select_date d => select_date d
  | op_recipient_toggle b => recipient_toggle b
  | op_pickup_toggle b => pickup_toggle b
  | op_set_active c b => set_active c b
  | op_set_visibility f b => set_visibility f b
  | op_set_required f b => set_required f b
  | op_update_available_slots => update_available_slots
  end.

(** One call after the other; an exception ends the sequence. *)
Fixpoint run_ops (ops : list Op) : M unit :=
  match ops with
  | [] => ret tt
  | op :: rest => run_op op ;; run_ops rest
  end.

Definition is_set_active (op : Op) : bool :=
  match op with
  | op_set_active _ _ => true
  | _ => false
  end.

Definition is_field_setter (op : Op) : bool :=
  match op with
  | op_set_visibility _ _ | op_set_required _ _ => true
  | _ => false
  end.

(** ** Observations *)

(** Every component refers back to the mediator, as after
    [OrderFormMediator.__init__]. *)
Definition wired (w : Form) : Prop :=
  forall c, mediator (base c w) = Some order_form_mediator.

Definition printed (t : list Event) : list string :=
  flat_map (fun e => match e with Print l => [l] | Enter _ => [] end) t.

Definition is_notify (e : Event) : bool :=
  match e with
  | Enter (call_notify _ _) => true
  | _ => false
  end.

Definition is_update_available_slots (e : Event) : bool :=
  match e with
  | Enter call_update_available_slots => true
  | _ => false
  end.

Definition count (p : Event -> bool) (t : list Event) : nat :=
  List.length (filter p t).

(** The value a [getattr(_, 'is_checked', False)] would read. *)
Definition checked_or_false (a : option bool) : bool :=
  match a with
  | Some b => b
  | None => false
  end.

(** ** The [mediator] property *)

(** The getter of [BaseComponent.mediator]. *)
Definition get_mediator (c : Component) : M (option MediatorRef) :=
  read (fun w => mediator (base c w)).

(** The setter of [BaseComponent.mediator]: any value is stored, [None]
    too. *)
Definition set_mediator (c : Component) (m : option MediatorRef) : M unit :=
  modify (fun w =>
    with_base c {| mediator := m; is_active := is_active (base c w) |} w).


(** While the pickup checkbox is checked no recipient input is shown. *)
Definition pickup_hides_fields (w : Form) : Prop :=
  checked_or_false (pc_is_checked (pickup_cb w)) = true ->
  is_visible (field Name w) = false /\ is_visible (field Phone w) = false.

Definition is_set_visibility (op : Op) : bool :=
  match op with
  | op_set_visibility _ _ => true
  | _ => false
  end.

(** [hasattr(sender, 'is_checked')] *)
Definition hasattr_is_checked (sender : Sender) (w : Form) : bool :=
  match sender with
  | from_component RecipientToggle =>
      match rc_is_checked (recipient_cb w) with Some _ => true | None => false end
  | from_component PickupToggle =>
      match pc_is_checked (pickup_cb w) with Some _ => true | None => false end
  | from_component _ => false
  | from_object (Some _) => true
  | from_object None => false
  end.

(** A direct [set_active(True)] on one of the three delivery components,
    the only calls that can activate one of them behind the mediator's
    back. *)
Definition is_delivery_activation (op : Op) : bool :=
  match op with
  | op_set_active DateSelector true
  | op_set_active TimeSlotList true
  | op_set_active RecipientToggle true => true
  | _ => false
  end.

(** A direct [set_visibility(True)] or a direct [set_required]: the calls
    that can show an input, or make it required or optional, behind the
    mediator's back. *)
Definition is_field_override (op : Op) : bool :=
  match op with
  | op_set_visibility _ true => true
  | op_set_required _ _ => true
  | _ => false
  end.

(** ** Invariants of the rule set *)

(** The three delivery components are active exactly when the pickup
    checkbox is not checked. *)
Definition delivery_follows_pickup (w : Form) : Prop :=
  let delivery_active := negb (checked_or_false (pc_is_checked (pickup_cb w))) in
  is_active (base DateSelector w) = delivery_active /\
  is_active (base TimeSlotList w) = delivery_active /\
  is_active (base RecipientToggle w) = delivery_active.

(** Both inputs are required exactly when the recipient checkbox is
    checked; they are shown or hidden together, and shown only while it is
    checked. *)
Definition fields_follow_recipient (w : Form) : Prop :=
  let checked := checked_or_false (rc_is_checked (recipient_cb w)) in
  is_required (field Name w) = checked /\
  is_required (field Phone w) = checked /\
  is_visible (field Name w) = is_visible (field Phone w) /\
  (is_visible (field Name w) = true -> checked = true).

(** A checked pickup checkbox has the three delivery components
    inactive. *)
Definition pickup_deactivates_delivery (w : Form) : Prop :=
  checked_or_false (pc_is_checked (pickup_cb w)) = true ->
  is_active (base DateSelector w) = false /\
  is_active (base TimeSlotList w) = false /\
  is_active (base RecipientToggle w) = false.

(** Both inputs are required exactly when the recipient checkbox is
    checked, and each is shown only while it is checked. *)
Definition fields_within_recipient (w : Form) : Prop :=
  let checked := checked_or_false (rc_is_checked (recipient_cb w)) in
  is_required (field Name w) = checked /\
  is_required (field Phone w) = checked /\
  (is_visible (field Name w) = true -> checked = true) /\
  (is_visible (field Phone w) = true -> checked = true).

(** * Properties *)

(** Case analysis on the flags and optional attributes a method branches
    on. *)
Ltac case_flags :=
  repeat match goal with
         | |- context [negb ?a] => is_var a; destruct a; cbn
         | |- context [if ?a then _ else _] => is_var a; destruct a; cbn
         | |- context [match ?a with Some _ => _ | None => _ end] =>
             is_var a; destruct a; cbn
         end.

Ltac split_form w :=
  destruct w as [[[? ?]] [[? ?]] [[? ?] ?] [[? ?] ? ? ?] [[? ?] ? ? ?] [[? ?] ?]].

(** ** The monad's projections *)

Lemma outcome_bind_ok {A B} (m : M A) (k : A -> M B) w a :
  outcome (m w) = inr a ->
  outcome (bind m k w) = outcome (k a (heap (m w))).
Proof. unfold bind. intros ->. reflexivity. Qed.

Lemma heap_bind_ok {A B} (m : M A) (k : A -> M B) w a :
  outcome (m w) = inr a ->
  heap (bind m k w) = heap (k a (heap (m w))).
Proof. unfold bind. intros ->. reflexivity. Qed.

(** ** Methods that do not depend on the wiring *)

Lemma new_form_wired name phone : wired (new_form name phone).
Proof. intros []; reflexivity. Qed.

(** The stub of the time slots changes nothing, active or not. *)
Lemma update_available_slots_heap (w : Form) :
  outcome (update_available_slots w) = inr tt /\
  heap (update_available_slots w) = w /\
  count is_notify (trace (update_available_slots w)) = 0.
Proof.
  cbn. destruct (is_active (ts_base (time_slots w))); repeat split.
Qed.

(** An inactive date picker returns before it touches anything. *)
Lemma select_date_inactive (d : date) (w : Form) :
  is_active (base DateSelector w) = false ->
  let r := select_date d w in
  outcome r = inr tt /\ heap r = w /\
  count is_notify (trace r) = 0 /\
  count is_update_available_slots (trace r) = 0.
Proof.
  intros Ha. cbn in Ha. cbn. rewrite Ha. repeat split.
Qed.

(** A blocked checkbox returns before it touches anything. *)
Lemma recipient_toggle_inactive (v : bool) (w : Form) :
  is_active (base RecipientToggle w) = false ->
  let r := recipient_toggle v w in
  outcome r = inr tt /\ heap r = w /\ count is_notify (trace r) = 0.
Proof.
  intros Ha. cbn in Ha. cbn. rewrite Ha. repeat split.
Qed.

(** ** Methods on a wired form *)

Section WiredForm.

Variable w : Form.
Hypothesis Hw : wired w.

Ltac still_wired :=
  let c := fresh "c" in
  intros c; destruct c; cbn; case_flags;
  first [ exact (Hw DateSelector) | exact (Hw TimeSlotList)
        | exact (Hw RecipientToggle) | exact (Hw NameField)
        | exact (Hw PhoneField) | exact (Hw PickupToggle) ].

(** The [pickup_toggled] handler: the three delivery components get
    [not is_checked]; the inputs are hidden on pickup. *)
Lemma pickup_toggle_heap (b : bool) :
  let r := pickup_toggle b w in
  outcome r = inr tt /\
  wired (heap r) /\
  pc_is_checked (pickup_cb (heap r)) = Some b /\
  is_active (base DateSelector (heap r)) = negb b /\
  is_active (base TimeSlotList (heap r)) = negb b /\
  is_active (base RecipientToggle (heap r)) = negb b /\
  rc_is_checked (recipient_cb (heap r)) = rc_is_checked (recipient_cb w) /\
  (forall f,
     is_visible (field f (heap r)) = (if b then false else is_visible (field f w)) /\
     is_required (field f (heap r)) = is_required (field f w)).
Proof.
  pose proof (Hw PickupToggle) as E. cbn in E.
  cbn. rewrite E.
  destruct b; cbn; repeat split; try still_wired; destruct f; reflexivity.
Qed.

(** The [recipient_checkbox_toggled] handler, reached from an active
    checkbox. *)
Lemma recipient_toggle_active_heap (v : bool) :
  is_active (base RecipientToggle w) = true ->
  let r := recipient_toggle v w in
  outcome r = inr tt /\
  wired (heap r) /\
  rc_is_checked (recipient_cb (heap r)) = Some v /\
  pc_is_checked (pickup_cb (heap r)) = pc_is_checked (pickup_cb w) /\
  (forall c, is_active (base c (heap r)) = is_active (base c w)) /\
  (forall f,
     is_visible (field f (heap r)) = v /\ is_required (field f (heap r)) = v).
Proof.
  pose proof (Hw RecipientToggle) as E. cbn in E.
  intros Ha. cbn in Ha.
  cbn. rewrite Ha. cbn. rewrite E. cbn.
  repeat split; try still_wired; try (intros []; reflexivity);
    destruct f; reflexivity.
Qed.

(** The [date_changed] handler changes no object. *)
Lemma select_date_heap (d : date) :
  outcome (select_date d w) = inr tt /\ heap (select_date d w) = w.
Proof.
  pose proof (Hw DateSelector) as E. cbn in E.
  cbn. destruct (is_active (dp_base (date_picker w))); cbn; [rewrite E; cbn|].
  - destruct (is_active (ts_base (time_slots w))); cbn; split; reflexivity.
  - split; reflexivity.
Qed.

(** No method raises, and the form stays wired. *)
Lemma run_op_wired (op : Op) :
  outcome (run_op op w) = inr tt /\ wired (heap (run_op op w)).
Proof.
  destruct op as [d|b|b|c s|f v|f v|]; cbn [run_op].
  - destruct (select_date_heap d) as [-> ->]. auto.
  - destruct (is_active (base RecipientToggle w)) eqn:Ha.
    + destruct (recipient_toggle_active_heap b Ha) as (-> & H & _). auto.
    + destruct (recipient_toggle_inactive b w Ha) as (-> & -> & _). auto.
  - destruct (pickup_toggle_heap b) as (-> & H & _). auto.
  - split; [reflexivity|]. destruct c; still_wired.
  - split; [reflexivity|]. destruct f; still_wired.
  - split; [reflexivity|]. destruct f; still_wired.
  - destruct (update_available_slots_heap w) as (-> & -> & _). auto.
Qed.

End WiredForm.

(** ** The run of [__main__] *)

(** The four scenarios of the client code: one refresh of the time slots
    (the second [select_date] is refused), the inputs required but hidden,
    the delivery components inactive. *)
Example main_run :
  let r := main main_form in
  outcome r = inr tt /\
  count is_update_available_slots (trace r) = 1 /\
  count is_notify (trace r) = 3 /\
  last (printed (trace r)) "" =
    "[DatePicker]: Неможливо обрати дату, компонент неактивний." /\
  heap r =
    {| date_picker := {| dp_base := mkBase (Some order_form_mediator) false |};
       time_slots := {| ts_base := mkBase (Some order_form_mediator) false |};
       recipient_cb :=
         {| rc_base := mkBase (Some order_form_mediator) false;
            rc_is_checked := Some true |};
       name_input :=
         {| ri_base := mkBase (Some order_form_mediator) true;
            field_name := "Ім'я"; is_visible := false; is_required := true |};
       phone_input :=
         {| ri_base := mkBase (Some order_form_mediator) true;
            field_name := "Телефон"; is_visible := false; is_required := true |};
       pickup_cb :=
         {| pc_base := mkBase (Some order_form_mediator) true;
            pc_is_checked := Some true |} |}.
Proof. repeat split. Qed.

(** Before the mediator's constructor has run the components have no
    mediator: an active date picker prints its line and then raises, and
    the pickup checkbox raises after it has stored the new value. *)
Example calls_without_mediator :
  let w := mkForm (DatePicker_init None) (TimeSlots_init None)
                  (RecipientCheckbox_init None)
                  (RecipientInput_init None "Ім'я")
                  (RecipientInput_init None "Телефон")
                  (PickupCheckbox_init None) in
  outcome (select_date (mkdate 2025 10 20) w) = inl AttributeError /\
  printed (trace (select_date (mkdate 2025 10 20) w)) =
    ["[DatePicker]: Обрано дату доставки 2025-10-20."] /\
  outcome (pickup_toggle true w) = inl AttributeError /\
  pc_is_checked (pickup_cb (heap (pickup_toggle true w))) = Some true /\
  is_active (base DateSelector (heap (pickup_toggle true w))) = true.
Proof. repeat split. Qed.

(** ** Pickup *)

(** C3 (P3, pickup activation): on any wired form, whatever its state,
    [PickupCheckbox.toggle(True)] returns normally and leaves the date
    picker, the time slots and the recipient checkbox inactive and both
    recipient inputs hidden. *)
Theorem pickup_activation (w : Form) :
  wired w ->
  let r := pickup_toggle true w in
  outcome r = inr tt /\
  is_active (base DateSelector (heap r)) = false /\
  is_active (base TimeSlotList (heap r)) = false /\
  is_active (base RecipientToggle (heap r)) = false /\
  is_visible (field Name (heap r)) = false /\
  is_visible (field Phone (heap r)) = false.
Proof.
  intros H r.
  destruct (pickup_toggle_heap w H true) as (Ho & _ & _ & Hd & Ht & Hr & _ & Hf).
  repeat split; try assumption; apply Hf.
Qed.

Lemma pickup_activation_witness :
  let w := heap ((select_date (mkdate 2025 10 20) ;; recipient_toggle true) main_form) in
  let r := pickup_toggle true w in
  outcome r = inr tt /\
  is_active (base DateSelector (heap r)) = false /\
  is_active (base TimeSlotList (heap r)) = false /\
  is_active (base RecipientToggle (heap r)) = false /\
  is_visible (field Name (heap r)) = false /\
  is_visible (field Phone (heap r)) = false.
Proof.
  apply (pickup_activation
           (heap ((select_date (mkdate 2025 10 20) ;; recipient_toggle true) main_form))).
  intros []; reflexivity.
Defined.

(** C4 (P4, reversibility): on any wired form, [toggle(True)] followed by
    [toggle(False)] on the pickup checkbox returns normally and leaves the
    date picker, the time slots and the recipient checkbox active. *)
Theorem pickup_round_trip (w : Form) :
  wired w ->
  let r := (pickup_toggle true ;; pickup_toggle false) w in
  outcome r = inr tt /\
  is_active (base DateSelector (heap r)) = true /\
  is_active (base TimeSlotList (heap r)) = true /\
  is_active (base RecipientToggle (heap r)) = true.
Proof.
  intros H r.
  destruct (pickup_toggle_heap w H true) as (Ho & Hw & _).
  destruct (pickup_toggle_heap _ Hw false) as (Ho' & _ & _ & Hd & Ht & Hr & _).
  subst r.
  rewrite (outcome_bind_ok _ _ _ _ Ho), (heap_bind_ok _ _ _ _ Ho).
  repeat split; assumption.
Qed.

Lemma pickup_round_trip_witness :
  let w := heap (pickup_toggle true main_form) in
  let r := (pickup_toggle true ;; pickup_toggle false) w in
  outcome r = inr tt /\
  is_active (base DateSelector (heap r)) = true /\
  is_active (base TimeSlotList (heap r)) = true /\
  is_active (base RecipientToggle (heap r)) = true.
Proof.
  apply (pickup_round_trip (heap (pickup_toggle true main_form))).
  intros []; reflexivity.
Defined.

(** ** Recipient *)

(** C5 (P2, recipient toggle): on a wired form whose recipient checkbox is
    active, [RecipientCheckbox.toggle(v)] returns normally with both inputs
    having [is_visible = v] and [is_required = v].  The attribute is
    assigned before the notification: the call ends in the state the
    handler gives on the form that already holds [is_checked = v], where
    [getattr(sender, 'is_checked', False)] reads [v]. *)
Theorem recipient_toggle_sets_fields (v : bool) (w : Form) :
  wired w ->
  is_active (base RecipientToggle w) = true ->
  let r := recipient_toggle v w in
  let committed :=
    with_recipient_cb {| rc_base := rc_base (recipient_cb w);
                         rc_is_checked := Some v |} w in
  outcome r = inr tt /\
  is_visible (field Name (heap r)) = v /\
  is_required (field Name (heap r)) = v /\
  is_visible (field Phone (heap r)) = v /\
  is_required (field Phone (heap r)) = v /\
  outcome (getattr_is_checked (from_component RecipientToggle) committed) = inr v /\
  heap r =
    heap (notify (from_component RecipientToggle) "recipient_checkbox_toggled"
            committed) /\
  count is_notify (trace r) = 1.
Proof.
  intros H Ha r committed.
  destruct (recipient_toggle_active_heap w H v Ha) as (Ho & _ & _ & _ & _ & Hf).
  destruct (Hf Name) as [Hnv Hnr]. destruct (Hf Phone) as [Hpv Hpr].
  do 5 (split; [assumption|]).
  split; [reflexivity|].
  pose proof (H RecipientToggle) as E.
  subst r committed. cbn in Ha, E |- *. rewrite Ha. cbn. rewrite E.
  split; reflexivity.
Qed.

Lemma recipient_toggle_sets_fields_witness :
  let r := recipient_toggle true main_form in
  let committed :=
    with_recipient_cb {| rc_base := rc_base (recipient_cb main_form);
                         rc_is_checked := Some true |} main_form in
  outcome r = inr tt /\
  is_visible (field Name (heap r)) = true /\
  is_required (field Name (heap r)) = true /\
  is_visible (field Phone (heap r)) = true /\
  is_required (field Phone (heap r)) = true /\
  outcome (getattr_is_checked (from_component RecipientToggle) committed) = inr true /\
  heap r =
    heap (notify (from_component RecipientToggle) "recipient_checkbox_toggled"
            committed) /\
  count is_notify (trace r) = 1.
Proof.
  apply (recipient_toggle_sets_fields true main_form).
  - intros []; reflexivity.
  - reflexivity.
Defined.

(** ** Date selection *)

(** C6 (Scenario A, P5): on a wired form, [select_date(d)] on an active
    date picker makes exactly one call of
    [TimeSlots.update_available_slots], through exactly one [notify]; on an
    inactive date picker it makes no such call, notifies nobody and leaves
    every object as it was. *)
Theorem select_date_gated (d : date) (w : Form) :
  wired w ->
  let r := select_date d w in
  (is_active (base DateSelector w) = true ->
     outcome r = inr tt /\
     count is_update_available_slots (trace r) = 1 /\
     count is_notify (trace r) = 1) /\
  (is_active (base DateSelector w) = false ->
     outcome r = inr tt /\
     count is_update_available_slots (trace r) = 0 /\
     count is_notify (trace r) = 0 /\
     heap r = w).
Proof.
  intros H r. split; intros Ha.
  - pose proof (H DateSelector) as E. subst r.
    cbn in Ha, E |- *. rewrite Ha. cbn. rewrite E. cbn.
    destruct (is_active (ts_base (time_slots w))); repeat split.
  - destruct (select_date_inactive d w Ha) as (Ho & Hh & Hn & Hu).
    repeat split; assumption.
Qed.

Lemma select_date_gated_witness :
  let d := mkdate 2025 10 25 in
  (let r := select_date d main_form in
   outcome r = inr tt /\
   count is_update_available_slots (trace r) = 1 /\
   count is_notify (trace r) = 1) /\
  (let w := heap (pickup_toggle true main_form) in
   let r := select_date d w in
   outcome r = inr tt /\
   count is_update_available_slots (trace r) = 0 /\
   count is_notify (trace r) = 0 /\
   heap r = w).
Proof.
  split.
  - apply (select_date_gated (mkdate 2025 10 25) main_form).
    + intros []; reflexivity.
    + reflexivity.
  - apply (select_date_gated (mkdate 2025 10 25)
             (heap (pickup_toggle true main_form))).
    + intros []; reflexivity.
    + reflexivity.
Defined.

(** ** Dispatch *)

(** C8: for any sender and any event other than the three the mediator
    knows, [notify] returns normally, leaves the form as it was and prints
    nothing; the call's own entry is all the trace holds. *)
Theorem notify_unknown_event (sender : Sender) (event : string) (w : Form) :
  event <> "date_changed" ->
  event <> "recipient_checkbox_toggled" ->
  event <> "pickup_toggled" ->
  notify sender event w = mkRun (inr tt) w [Enter (call_notify sender event)].
Proof.
  intros H1 H2 H3.
  apply String.eqb_neq in H1, H2, H3.
  unfold notify. unfold bind at 1.
  cbn [enter outcome heap trace].
  rewrite H1, H2, H3. reflexivity.
Qed.

Lemma notify_unknown_event_witness :
  notify (from_component PickupToggle) "pickup_untoggled"
         (heap (recipient_toggle true main_form))
  = mkRun (inr tt) (heap (recipient_toggle true main_form))
          [Enter (call_notify (from_component PickupToggle) "pickup_untoggled")].
Proof.
  apply (notify_unknown_event (from_component PickupToggle) "pickup_untoggled");
    discriminate.
Defined.

(** [notify] never re-enters itself: whatever the sender, the event and
    the form, its trace holds its own entry and no other [notify]. *)
Lemma notify_not_reentrant (sender : Sender) (event : string) (w : Form) :
  count is_notify (trace (notify sender event w)) = 1.
Proof.
  unfold notify. unfold bind at 1.
  cbn [enter outcome heap trace].
  destruct (event =? "date_changed").
  { cbn. destruct (is_active (ts_base (time_slots w))); reflexivity. }
  destruct (event =? "recipient_checkbox_toggled").
  { reflexivity. }
  destruct (event =? "pickup_toggled").
  { split_form w. destruct sender as [[]|[[]|]]; cbn; case_flags; reflexivity. }
  reflexivity.
Qed.

(** A component's notification is one [notify], or none when the
    component has no mediator. *)
Lemma mediator_notify_count (self : Component) (event : string) (w : Form) :
  count is_notify (trace (mediator_notify self event w)) <= 1.
Proof.
  unfold mediator_notify, bind, read. cbn [outcome heap trace app].
  destruct (mediator (base self w)) as [[]|].
  - rewrite notify_not_reentrant. lia.
  - cbn. lia.
Qed.

(** C9: whatever the form (wired or not, reachable or not), a call of any
    component method leads to at most one call of [notify], and the
    handlers of [notify] lead to none: the only [notify] in the trace of a
    [notify] is the call itself. *)
Theorem at_most_one_notify :
  (forall (op : Op) (w : Form), count is_notify (trace (run_op op w)) <= 1) /\
  (forall (sender : Sender) (event : string) (w : Form),
     count is_notify (trace (notify sender event w)) = 1).
Proof.
  split; [| exact notify_not_reentrant].
  intros op w.
  destruct op as [d|b|b|c s|f v|f v|]; cbn -[mediator_notify].
  - destruct (is_active (dp_base (date_picker w))); cbn -[mediator_notify].
    + apply mediator_notify_count.
    + lia.
  - destruct (is_active (rc_base (recipient_cb w))); cbn -[mediator_notify].
    + apply mediator_notify_count.
    + lia.
  - apply mediator_notify_count.
  - lia.
  - lia.
  - lia.
  - destruct (is_active (ts_base (time_slots w))); cbn; lia.
Qed.

(** ** Field setters *)

(** C10: [set_visibility] and [set_required] assign the attribute whatever
    the input's [is_active] flag is, in particular right after
    [set_active(False)] on that input. *)
Theorem field_setters_not_gated (f : Field) (v : bool) (w : Form) :
  (is_visible (field f (heap (set_visibility f v w))) = v /\
   is_required (field f (heap (set_required f v w))) = v) /\
  (let w' := heap (set_active (component_of_field f) false w) in
   is_active (base (component_of_field f) w') = false /\
   is_visible (field f (heap (set_visibility f v w'))) = v /\
   is_required (field f (heap (set_required f v w'))) = v).
Proof.
  destruct f; repeat split.
Qed.

(** ** Sequences of calls on a wired form *)

(** An invariant of every allowed call is an invariant of every sequence
    of allowed calls, which runs to its end. *)
Lemma run_ops_invariant (allowed : Op -> bool) (I : Form -> Prop) :
  (forall op w, allowed op = true -> wired w -> I w -> I (heap (run_op op w))) ->
  forall ops w,
    forallb allowed ops = true -> wired w -> I w ->
    outcome (run_ops ops w) = inr tt /\
    wired (heap (run_ops ops w)) /\
    I (heap (run_ops ops w)).
Proof.
  intros Hstep ops.
  induction ops as [|op rest IH]; intros w Hall Hw Hi.
  - cbn. auto.
  - cbn [forallb] in Hall. apply andb_true_iff in Hall as [Hop Hrest].
    destruct (run_op_wired w Hw op) as [Ho Hw'].
    cbn [run_ops].
    rewrite (outcome_bind_ok _ _ _ _ Ho), (heap_bind_ok _ _ _ _ Ho).
    apply IH; auto.
Qed.

(** ** The pickup checkbox and the delivery components *)

Lemma delivery_follows_pickup_step (op : Op) (w : Form) :
  is_set_active op = false ->
  wired w ->
  delivery_follows_pickup w ->
  delivery_follows_pickup (heap (run_op op w)).
Proof.
  unfold delivery_follows_pickup.
  intros Hop Hw (Hd & Ht & Hr).
  destruct op as [d|b|b|c s|f v|f v|]; try discriminate Hop; cbn [run_op].
  - destruct (select_date_heap w Hw d) as [_ ->]. auto.
  - destruct (is_active (base RecipientToggle w)) eqn:Ha.
    + destruct (recipient_toggle_active_heap w Hw b Ha) as (_ & _ & _ & Hp & Hact & _).
      rewrite Hp, !Hact, Ha. auto.
    + destruct (recipient_toggle_inactive b w Ha) as (_ & -> & _).
      rewrite Ha. auto.
  - destruct (pickup_toggle_heap w Hw b) as (_ & _ & -> & -> & -> & -> & _).
    cbn. auto.
  - destruct f; cbn in *; auto.
  - destruct f; cbn in *; auto.
  - destruct (update_available_slots_heap w) as (_ & -> & _). auto.
Qed.

Lemma pickup_deactivates_delivery_step (op : Op) (w : Form) :
  is_delivery_activation op = false ->
  wired w ->
  pickup_deactivates_delivery w ->
  pickup_deactivates_delivery (heap (run_op op w)).
Proof.
  unfold pickup_deactivates_delivery.
  intros Hop Hw Hinv.
  destruct op as [d|b|b|c s|f v|f v|]; cbn [run_op].
  - destruct (select_date_heap w Hw d) as [_ ->]. exact Hinv.
  - destruct (bool_dec (is_active (base RecipientToggle w)) true) as [Ha|Ha].
    + destruct (recipient_toggle_active_heap w Hw b Ha) as (_ & _ & _ & Hp & Hact & _).
      rewrite Hp, !Hact. exact Hinv.
    + apply not_true_is_false in Ha.
      destruct (recipient_toggle_inactive b w Ha) as (_ & -> & _). exact Hinv.
  - destruct (pickup_toggle_heap w Hw b) as (_ & _ & -> & -> & -> & -> & _).
    cbn [checked_or_false]. intros ->. repeat split.
  - destruct c, s; try discriminate Hop; cbn in *; intros Hp;
      destruct (Hinv Hp) as (Hd & Ht & Hr); repeat split; assumption.
  - destruct f; exact Hinv.
  - destruct f; exact Hinv.
  - destruct (update_available_slots_heap w) as (_ & -> & _). exact Hinv.
Qed.

(** C7, amended: in every state reached from a freshly constructed form
    by public operations, [set_active] included, other than a direct
    [set_active(True)] on the date picker, the time slots or the recipient
    checkbox, a checked pickup checkbox implies that these three are
    inactive. *)
Theorem pickup_implies_delivery_inactive
    (name phone : string) (ops : list Op) :
  forallb (fun op => negb (is_delivery_activation op)) ops = true ->
  let r := run_ops ops (new_form name phone) in
  outcome r = inr tt /\
  (pc_is_checked (pickup_cb (heap r)) = Some true ->
   is_active (base DateSelector (heap r)) = false /\
   is_active (base TimeSlotList (heap r)) = false /\
   is_active (base RecipientToggle (heap r)) = false).
Proof.
  intros Hall r.
  assert (H : outcome r = inr tt /\ wired (heap r) /\
              pickup_deactivates_delivery (heap r)).
  { apply run_ops_invariant with
      (allowed := fun op => negb (is_delivery_activation op)).
    - intros op w Hop. apply negb_true_iff in Hop.
      now apply pickup_deactivates_delivery_step.
    - exact Hall.
    - apply new_form_wired.
    - intros Hp. discriminate Hp. }
  destruct H as (Ho & _ & Hinv).
  split; [exact Ho|].
  intros Hc. apply Hinv. rewrite Hc. reflexivity.
Qed.

Lemma pickup_implies_delivery_inactive_witness :
  let ops := [op_set_active DateSelector false; op_set_active PickupToggle false;
              op_recipient_toggle true; op_pickup_toggle true;
              op_set_active TimeSlotList false; op_set_active NameField true;
              op_set_visibility Name true; op_update_available_slots] in
  let r := run_ops ops main_form in
  outcome r = inr tt /\
  is_active (base DateSelector (heap r)) = false /\
  is_active (base TimeSlotList (heap r)) = false /\
  is_active (base RecipientToggle (heap r)) = false.
Proof.
  destruct (pickup_implies_delivery_inactive "Ім'я" "Телефон"
              [op_set_active DateSelector false; op_set_active PickupToggle false;
               op_recipient_toggle true; op_pickup_toggle true;
               op_set_active TimeSlotList false; op_set_active NameField true;
               op_set_visibility Name true; op_update_available_slots])
    as [Ho Hinv].
  - reflexivity.
  - split; [exact Ho|]. apply Hinv. reflexivity.
Defined.

(** C7 as stated fails: after [pickup_cb.toggle(True)], a direct
    [set_active(True)] on the date picker, on the time slots or on the
    recipient checkbox leaves the pickup checkbox checked and that
    component active. *)
Lemma set_active_overrides_pickup :
  (let r := run_ops [op_pickup_toggle true; op_set_active DateSelector true]
                    main_form in
   outcome r = inr tt /\
   pc_is_checked (pickup_cb (heap r)) = Some true /\
   is_active (base DateSelector (heap r)) = true) /\
  (let r := run_ops [op_pickup_toggle true; op_set_active TimeSlotList true]
                    main_form in
   outcome r = inr tt /\
   pc_is_checked (pickup_cb (heap r)) = Some true /\
   is_active (base TimeSlotList (heap r)) = true) /\
  (let r := run_ops [op_pickup_toggle true; op_set_active RecipientToggle true]
                    main_form in
   outcome r = inr tt /\
   pc_is_checked (pickup_cb (heap r)) = Some true /\
   is_active (base RecipientToggle (heap r)) = true).
Proof. repeat split. Qed.

(** ** The recipient checkbox and its two inputs *)

Lemma fields_follow_recipient_step (op : Op) (w : Form) :
  is_field_setter op = false ->
  wired w ->
  fields_follow_recipient w ->
  fields_follow_recipient (heap (run_op op w)).
Proof.
  unfold fields_follow_recipient.
  intros Hop Hw (Hn & Hp & Hv & Hc).
  destruct op as [d|b|b|c s|f v|f v|]; try discriminate Hop; cbn [run_op].
  - destruct (select_date_heap w Hw d) as [_ ->]. auto.
  - destruct (is_active (base RecipientToggle w)) eqn:Ha.
    + destruct (recipient_toggle_active_heap w Hw b Ha) as (_ & _ & Hr & _ & _ & Hf).
      rewrite Hr.
      destruct (Hf Name) as [-> ->]. destruct (Hf Phone) as [-> ->].
      cbn. auto.
    + destruct (recipient_toggle_inactive b w Ha) as (_ & -> & _). auto.
  - destruct (pickup_toggle_heap w Hw b) as (_ & _ & _ & _ & _ & _ & Hr & Hf).
    rewrite Hr.
    destruct (Hf Name) as [-> ->]. destruct (Hf Phone) as [-> ->].
    destruct b; auto.
    repeat split; auto. discriminate.
  - destruct c; cbn in *; auto.
  - destruct (update_available_slots_heap w) as (_ & -> & _). auto.
Qed.

Lemma fields_within_recipient_step (op : Op) (w : Form) :
  is_field_override op = false ->
  wired w ->
  fields_within_recipient w ->
  fields_within_recipient (heap (run_op op w)).
Proof.
  unfold fields_within_recipient.
  intros Hop Hw (Hn & Hp & Hvn & Hvp).
  destruct op as [d|b|b|c s|f v|f v|]; try discriminate Hop; cbn [run_op].
  - destruct (select_date_heap w Hw d) as [_ ->]. auto.
  - destruct (is_active (base RecipientToggle w)) eqn:Ha.
    + destruct (recipient_toggle_active_heap w Hw b Ha) as (_ & _ & Hr & _ & _ & Hf).
      rewrite Hr.
      destruct (Hf Name) as [-> ->]. destruct (Hf Phone) as [-> ->].
      cbn. auto.
    + destruct (recipient_toggle_inactive b w Ha) as (_ & -> & _). auto.
  - destruct (pickup_toggle_heap w Hw b) as (_ & _ & _ & _ & _ & _ & Hr & Hf).
    rewrite Hr.
    destruct (Hf Name) as [-> ->]. destruct (Hf Phone) as [-> ->].
    destruct b; auto.
    repeat split; auto; discriminate.
  - destruct c; cbn in *; auto.
  - destruct v; [discriminate Hop|].
    destruct f; cbn in *; repeat split; auto; discriminate.
  - destruct (update_available_slots_heap w) as (_ & -> & _). auto.
Qed.

(** C1, amended: in every state reached from a freshly constructed form
    by public operations other than a direct [set_visibility(True)] or a
    direct [set_required], a checked recipient checkbox implies that both
    inputs are required, and an unchecked one (never toggled, which
    [getattr] reads as [False], included) that both are hidden and not
    required. *)
Theorem recipient_checked_implies_required
    (name phone : string) (ops : list Op) :
  forallb (fun op => negb (is_field_override op)) ops = true ->
  let r := run_ops ops (new_form name phone) in
  let checked := checked_or_false (rc_is_checked (recipient_cb (heap r))) in
  outcome r = inr tt /\
  (checked = true ->
   is_required (field Name (heap r)) = true /\
   is_required (field Phone (heap r)) = true) /\
  (checked = false ->
   is_visible (field Name (heap r)) = false /\
   is_required (field Name (heap r)) = false /\
   is_visible (field Phone (heap r)) = false /\
   is_required (field Phone (heap r)) = false).
Proof.
  intros Hall r checked.
  assert (H : outcome r = inr tt /\ wired (heap r) /\
              fields_within_recipient (heap r)).
  { apply run_ops_invariant with (allowed := fun op => negb (is_field_override op)).
    - intros op w Hop. apply negb_true_iff in Hop.
      now apply fields_within_recipient_step.
    - exact Hall.
    - apply new_form_wired.
    - repeat split; discriminate. }
  destruct H as (Ho & _ & Hn & Hp & Hvn & Hvp).
  fold checked in Hn, Hp, Hvn, Hvp.
  split; [exact Ho|].
  split; intros Hc; rewrite Hc in Hn, Hp, Hvn, Hvp.
  - auto.
  - repeat split; try assumption.
    + destruct (is_visible (field Name (heap r))); [symmetry; auto|reflexivity].
    + destruct (is_visible (field Phone (heap r))); [symmetry; auto|reflexivity].
Qed.

Lemma recipient_checked_implies_required_witness :
  (let ops := [op_recipient_toggle true; op_set_visibility Name false;
               op_pickup_toggle true; op_set_active RecipientToggle true;
               op_pickup_toggle false] in
   let r := run_ops ops main_form in
   outcome r = inr tt /\
   is_required (field Name (heap r)) = true /\
   is_required (field Phone (heap r)) = true) /\
  (let ops := [op_select_date (mkdate 2025 10 20); op_pickup_toggle true;
               op_recipient_toggle true; op_set_visibility Phone false] in
   let r := run_ops ops main_form in
   outcome r = inr tt /\
   rc_is_checked (recipient_cb (heap r)) = None /\
   is_visible (field Name (heap r)) = false /\
   is_required (field Name (heap r)) = false /\
   is_visible (field Phone (heap r)) = false /\
   is_required (field Phone (heap r)) = false).
Proof.
  split.
  - destruct (recipient_checked_implies_required "Ім'я" "Телефон"
                [op_recipient_toggle true; op_set_visibility Name false;
                 op_pickup_toggle true; op_set_active RecipientToggle true;
                 op_pickup_toggle false])
      as (Ho & Ht & _).
    + reflexivity.
    + split; [exact Ho|]. apply Ht. reflexivity.
  - destruct (recipient_checked_implies_required "Ім'я" "Телефон"
                [op_select_date (mkdate 2025 10 20); op_pickup_toggle true;
                 op_recipient_toggle true; op_set_visibility Phone false])
      as (Ho & _ & Hf).
    + reflexivity.
    + split; [exact Ho|]. split; [reflexivity|]. apply Hf. reflexivity.
Defined.

(** C1 as stated fails in four ways.  The pickup handler hides the inputs
    of a checked recipient checkbox and leaves it checked; a direct
    [set_visibility(True)] shows an input of an unchecked one; a direct
    [set_required(False)] makes an input of a checked one optional; a
    direct [set_required(True)] makes an input of an unchecked one
    required. *)
Lemma recipient_checked_fields_hidden :
  (let r := run_ops [op_recipient_toggle true; op_pickup_toggle true] main_form in
   outcome r = inr tt /\
   rc_is_checked (recipient_cb (heap r)) = Some true /\
   is_visible (field Name (heap r)) = false /\
   is_visible (field Phone (heap r)) = false) /\
  (let r := run_ops [op_recipient_toggle false; op_set_visibility Name true]
                    main_form in
   outcome r = inr tt /\
   rc_is_checked (recipient_cb (heap r)) = Some false /\
   is_visible (field Name (heap r)) = true) /\
  (let r := run_ops [op_recipient_toggle true; op_set_required Name false]
                    main_form in
   outcome r = inr tt /\
   rc_is_checked (recipient_cb (heap r)) = Some true /\
   is_required (field Name (heap r)) = false) /\
  (let r := run_ops [op_recipient_toggle false; op_set_required Phone true]
                    main_form in
   outcome r = inr tt /\
   rc_is_checked (recipient_cb (heap r)) = Some false /\
   is_required (field Phone (heap r)) = true).
Proof. repeat split. Qed.

(** ** Inactive components *)

(** C2, amended: [set_active(False)] clears the flag of any component;
    while the flag of the date picker, the time slots or the recipient
    checkbox is clear, that component's own operation ([select_date],
    [update_available_slots], [toggle]) returns normally, calls no
    [notify] and leaves every object as it was. *)
Theorem inactive_component_ignores_calls (d : date) (v : bool) (w : Form) :
  (forall c, is_active (base c (heap (set_active c false w))) = false) /\
  (is_active (base DateSelector w) = false ->
   let r := select_date d w in
   outcome r = inr tt /\ heap r = w /\ count is_notify (trace r) = 0) /\
  (is_active (base TimeSlotList w) = false ->
   let r := update_available_slots w in
   outcome r = inr tt /\ heap r = w /\ count is_notify (trace r) = 0) /\
  (is_active (base RecipientToggle w) = false ->
   let r := recipient_toggle v w in
   outcome r = inr tt /\ heap r = w /\ count is_notify (trace r) = 0).
Proof.
  split; [intros []; reflexivity|].
  split; [|split].
  - intros Ha. destruct (select_date_inactive d w Ha) as (Ho & Hh & Hn & _). auto.
  - intros _. apply update_available_slots_heap.
  - intros Ha. apply (recipient_toggle_inactive v w Ha).
Qed.

Lemma inactive_component_ignores_calls_witness :
  let d := mkdate 2025 10 25 in
  (let w := heap (set_active DateSelector false main_form) in
   let r := select_date d w in
   outcome r = inr tt /\ heap r = w /\ count is_notify (trace r) = 0) /\
  (let w := heap (set_active TimeSlotList false main_form) in
   let r := update_available_slots w in
   outcome r = inr tt /\ heap r = w /\ count is_notify (trace r) = 0) /\
  (let w := heap (set_active RecipientToggle false main_form) in
   let r := recipient_toggle true w in
   outcome r = inr tt /\ heap r = w /\ count is_notify (trace r) = 0).
Proof.
  split; [|split].
  - destruct (inactive_component_ignores_calls (mkdate 2025 10 25) true
                (heap (set_active DateSelector false main_form)))
      as (_ & Hd & _ & _).
    apply Hd. reflexivity.
  - destruct (inactive_component_ignores_calls (mkdate 2025 10 25) true
                (heap (set_active TimeSlotList false main_form)))
      as (_ & _ & Ht & _).
    apply Ht. reflexivity.
  - destruct (inactive_component_ignores_calls (mkdate 2025 10 25) true
                (heap (set_active RecipientToggle false main_form)))
      as (_ & _ & _ & Hr).
    apply Hr. reflexivity.
Defined.

(** C2 as stated fails for the other three components: the pickup
    checkbox set inactive still stores the new value and notifies the
    mediator, which deactivates the delivery components; an input set
    inactive still takes [set_visibility] and [set_required]. *)
Lemma inactive_pickup_and_inputs_still_change :
  (let w := heap (set_active PickupToggle false main_form) in
   let r := pickup_toggle true w in
   is_active (base PickupToggle w) = false /\
   pc_is_checked (pickup_cb w) = None /\
   pc_is_checked (pickup_cb (heap r)) = Some true /\
   is_active (base DateSelector w) = true /\
   is_active (base DateSelector (heap r)) = false /\
   count is_notify (trace r) = 1) /\
  (let w := heap (set_active NameField false main_form) in
   is_active (base NameField w) = false /\
   is_visible (field Name w) = false /\
   is_visible (field Name (heap (set_visibility Name true w))) = true /\
   is_required (field Name w) = false /\
   is_required (field Name (heap (set_required Name true w))) = true).
Proof. repeat split. Qed.

(** * Further properties of the form *)

(** ** Construction *)


(** X2: the [mediator] property gives back what was last assigned to it,
    for this component only: an assignment changes neither the mediator of
    another component nor any other attribute of any component. *)
Theorem mediator_property_round_trip
    (c : Component) (m : option MediatorRef) (w : Form) :
  let w' := heap (set_mediator c m w) in
  outcome (get_mediator c w') = inr m /\
  (forall c', c' <> c -> base c' w' = base c' w) /\
  is_active (base c w') = is_active (base c w) /\
  rc_is_checked (recipient_cb w') = rc_is_checked (recipient_cb w) /\
  pc_is_checked (pickup_cb w') = pc_is_checked (pickup_cb w) /\
  (forall f,
     field_name (field f w') = field_name (field f w) /\
     is_visible (field f w') = is_visible (field f w) /\
     is_required (field f w') = is_required (field f w)).
Proof.
  destruct c; repeat split;
    try (intros [] Hne; try reflexivity; contradiction Hne; reflexivity);
    destruct f; reflexivity.
Qed.

(** ** Exceptions *)

(** X3: on a wired form no sequence of calls raises, and the form stays
    wired. *)
Theorem wired_form_never_raises (ops : list Op) (w : Form) :
  wired w ->
  outcome (run_ops ops w) = inr tt /\ wired (heap (run_ops ops w)).
Proof.
  intros Hw.
  destruct (run_ops_invariant (fun _ => true) (fun _ => True)) with
    (ops := ops) (w := w) as (Ho & Hw' & _); auto.
  clear. induction ops; auto.
Qed.

Lemma wired_form_never_raises_witness :
  let ops := [op_pickup_toggle true; op_select_date (mkdate 2025 10 25);
              op_recipient_toggle true; op_set_active DateSelector true;
              op_select_date (mkdate 2025 10 26); op_pickup_toggle false] in
  outcome (run_ops ops main_form) = inr tt /\
  wired (heap (run_ops ops main_form)).
Proof.
  apply (wired_form_never_raises
           [op_pickup_toggle true; op_select_date (mkdate 2025 10 25);
            op_recipient_toggle true; op_set_active DateSelector true;
            op_select_date (mkdate 2025 10 26); op_pickup_toggle false]
           main_form).
  intros []; reflexivity.
Defined.

(** X4: the only exception is on the way to the mediator.  [select_date]
    and the recipient's [toggle] raise exactly when the component is
    active and has no mediator, the pickup's [toggle] exactly when it has
    no mediator; [set_active], the two setters of an input and
    [update_available_slots] never raise, and neither does [notify] when
    its sender is one of the form's components, as in every call the
    components themselves make. *)
Theorem raises_only_without_mediator (w : Form) :
  (forall d,
     outcome (select_date d w) = inl AttributeError <->
     is_active (base DateSelector w) = true /\
     mediator (base DateSelector w) = None) /\
  (forall v,
     outcome (recipient_toggle v w) = inl AttributeError <->
     is_active (base RecipientToggle w) = true /\
     mediator (base RecipientToggle w) = None) /\
  (forall v,
     outcome (pickup_toggle v w) = inl AttributeError <->
     mediator (base PickupToggle w) = None) /\
  (forall c s, outcome (set_active c s w) = inr tt) /\
  (forall f v, outcome (set_visibility f v w) = inr tt) /\
  (forall f v, outcome (set_required f v w) = inr tt) /\
  outcome (update_available_slots w) = inr tt /\
  (forall c event, outcome (notify (from_component c) event w) = inr tt).
Proof.
  split; [|split; [|split; [|split; [|split; [|split; [|split]]]]]].
  - intros d. cbn.
    destruct (is_active (dp_base (date_picker w))); cbn;
      [|intuition congruence].
    destruct (mediator (dp_base (date_picker w))) as [[]|]; cbn;
      [|intuition congruence].
    destruct (is_active (ts_base (time_slots w))); cbn; intuition congruence.
  - intros v. cbn.
    destruct (is_active (rc_base (recipient_cb w))); cbn;
      [|intuition congruence].
    destruct (mediator (rc_base (recipient_cb w))) as [[]|]; cbn;
      intuition congruence.
  - intros v. cbn.
    destruct (mediator (pc_base (pickup_cb w))) as [[]|]; cbn;
      [|intuition congruence].
    destruct v; cbn; intuition congruence.
  - reflexivity.
  - reflexivity.
  - reflexivity.
  - apply update_available_slots_heap.
  - intros c event. unfold notify. unfold bind at 1.
    cbn [enter outcome heap trace].
    destruct (event =? "date_changed").
    { cbn. destruct (is_active (ts_base (time_slots w))); reflexivity. }
    destruct (event =? "recipient_checkbox_toggled"); [reflexivity|].
    destruct (event =? "pickup_toggled"); [|reflexivity].
    cbn.
    destruct c; cbn;
      try destruct (rc_is_checked (recipient_cb w)) as [[]|];
      try destruct (pc_is_checked (pickup_cb w)) as [[]|]; reflexivity.
Qed.

(** X5: a checkbox without a mediator has already stored the new value
    when its [toggle] raises: the pickup checkbox is left holding
    [is_checked] with the delivery components as they were, and an active
    recipient checkbox likewise with the inputs as they were. *)
Theorem toggle_commits_before_it_raises (v : bool) (w : Form) :
  (mediator (base PickupToggle w) = None ->
   let r := pickup_toggle v w in
   outcome r = inl AttributeError /\
   heap r = with_pickup_cb {| pc_base := pc_base (pickup_cb w);
                              pc_is_checked := Some v |} w /\
   count is_notify (trace r) = 0) /\
  (mediator (base RecipientToggle w) = None ->
   is_active (base RecipientToggle w) = true ->
   let r := recipient_toggle v w in
   outcome r = inl AttributeError /\
   heap r = with_recipient_cb {| rc_base := rc_base (recipient_cb w);
                                 rc_is_checked := Some v |} w /\
   count is_notify (trace r) = 0).
Proof.
  split.
  - intros Hm. cbn in Hm. cbn. rewrite Hm. repeat split.
  - intros Hm Ha. cbn in Hm, Ha. cbn. rewrite Ha. cbn. rewrite Hm. repeat split.
Qed.

Lemma toggle_commits_before_it_raises_witness :
  let w := mkForm (DatePicker_init None) (TimeSlots_init None)
                  (RecipientCheckbox_init None)
                  (RecipientInput_init None "Ім'я")
                  (RecipientInput_init None "Телефон")
                  (PickupCheckbox_init None) in
  (let r := pickup_toggle true w in
   outcome r = inl AttributeError /\
   heap r = with_pickup_cb {| pc_base := pc_base (pickup_cb w);
                              pc_is_checked := Some true |} w /\
   count is_notify (trace r) = 0) /\
  (let r := recipient_toggle true w in
   outcome r = inl AttributeError /\
   heap r = with_recipient_cb {| rc_base := rc_base (recipient_cb w);
                                 rc_is_checked := Some true |} w /\
   count is_notify (trace r) = 0).
Proof.
  destruct (toggle_commits_before_it_raises true
              (mkForm (DatePicker_init None) (TimeSlots_init None)
                      (RecipientCheckbox_init None)
                      (RecipientInput_init None "Ім'я")
                      (RecipientInput_init None "Телефон")
                      (PickupCheckbox_init None))) as [Hp Hr].
  split.
  - apply Hp. reflexivity.
  - apply Hr; reflexivity.
Defined.

(** ** What the methods leave alone *)

(** X6: choosing a date never changes an object, on any form: neither
    [select_date] (active or not, with or without a mediator), nor the
    [date_changed] handler reached from any sender, nor
    [update_available_slots]. *)
Theorem date_selection_changes_nothing (d : date) (sender : Sender) (w : Form) :
  heap (select_date d w) = w /\
  heap (notify sender "date_changed" w) = w /\
  heap (update_available_slots w) = w.
Proof.
  split; [|split].
  - cbn. destruct (is_active (dp_base (date_picker w))); cbn; [|reflexivity].
    destruct (mediator (dp_base (date_picker w))) as [[]|]; cbn; [|reflexivity].
    destruct (is_active (ts_base (time_slots w))); reflexivity.
  - cbn. destruct (is_active (ts_base (time_slots w))); reflexivity.
  - apply update_available_slots_heap.
Qed.

(** The mediator never writes to the pickup checkbox. *)
Lemma notify_pickup_cb (sender : Sender) (event : string) (w : Form) :
  pickup_cb (heap (notify sender event w)) = pickup_cb w.
Proof.
  unfold notify. unfold bind at 1.
  cbn [enter outcome heap trace].
  destruct (event =? "date_changed").
  { cbn. destruct (is_active (ts_base (time_slots w))); reflexivity. }
  destruct (event =? "recipient_checkbox_toggled"); [reflexivity|].
  destruct (event =? "pickup_toggled"); [|reflexivity].
  cbn.
  destruct sender as [[]|[[]|]]; cbn;
    try destruct (rc_is_checked (recipient_cb w)) as [[]|];
    try destruct (pc_is_checked (pickup_cb w)) as [[]|]; reflexivity.
Qed.



(** ** The handlers and the sender *)

Lemma bind_run {A B} (m : M A) (k : A -> M B) w a w1 t :
  m w = mkRun (inr a) w1 t ->
  bind m k w = mkRun (outcome (k a w1)) (heap (k a w1)) (t ++ trace (k a w1)).
Proof. unfold bind. intros ->. reflexivity. Qed.

(** What the two handlers that read the sender do with the value read. *)
Lemma notify_handlers_heap (sender : Sender) (v : bool) (w : Form) :
  outcome (getattr_is_checked sender w) = inr v ->
  (let w' := heap (notify sender "recipient_checkbox_toggled" w) in
   forall f, is_visible (field f w') = v /\ is_required (field f w') = v) /\
  (let w' := heap (notify sender "pickup_toggled" w) in
   is_active (base DateSelector w') = negb v /\
   is_active (base TimeSlotList w') = negb v /\
   is_active (base RecipientToggle w') = negb v /\
   forall f,
     is_visible (field f w') = (if v then false else is_visible (field f w)) /\
     is_required (field f w') = is_required (field f w)).
Proof.
  intros Hv.
  assert (E : getattr_is_checked sender w = mkRun (inr v) w []).
  { unfold getattr_is_checked, read in *. cbn in Hv. injection Hv as ->.
    reflexivity. }
  split.
  - unfold notify. cbn -[getattr_is_checked].
    rewrite !(bind_run (getattr_is_checked sender) _ w v w [] E). cbn.
    intros []; split; reflexivity.
  - unfold notify. cbn -[getattr_is_checked].
    rewrite !(bind_run (getattr_is_checked sender) _ w v w [] E). cbn.
    destruct v; cbn; repeat split; destruct f; reflexivity.
Qed.

(** X9: the handlers act on the sender's attribute, whoever the sender
    is.  With [v = getattr(sender, 'is_checked', False)],
    [recipient_checkbox_toggled] leaves both inputs with
    [is_visible = is_required = v], and [pickup_toggled] leaves the three
    delivery components with [is_active = not v], hides both inputs when
    [v] holds and keeps their visibility otherwise, and keeps
    [is_required]. *)
Theorem handlers_follow_sender_attribute (sender : Sender) (v : bool) (w : Form) :
  outcome (getattr_is_checked sender w) = inr v ->
  (let w' := heap (notify sender "recipient_checkbox_toggled" w) in
   forall f, is_visible (field f w') = v /\ is_required (field f w') = v) /\
  (let w' := heap (notify sender "pickup_toggled" w) in
   is_active (base DateSelector w') = negb v /\
   is_active (base TimeSlotList w') = negb v /\
   is_active (base RecipientToggle w') = negb v /\
   forall f,
     is_visible (field f w') = (if v then false else is_visible (field f w)) /\
     is_required (field f w') = is_required (field f w)).
Proof. exact (notify_handlers_heap sender v w). Qed.

Lemma handlers_follow_sender_attribute_witness :
  let w := heap (pickup_toggle true main_form) in
  (let w' := heap (notify (from_component PickupToggle)
                     "recipient_checkbox_toggled" w) in
   forall f, is_visible (field f w') = true /\ is_required (field f w') = true) /\
  (let w' := heap (notify (from_component PickupToggle) "pickup_toggled" w) in
   is_active (base DateSelector w') = negb true /\
   is_active (base TimeSlotList w') = negb true /\
   is_active (base RecipientToggle w') = negb true /\
   forall f,
     is_visible (field f w') = (if true then false else is_visible (field f w)) /\
     is_required (field f w') = is_required (field f w)).
Proof.
  apply (handlers_follow_sender_attribute (from_component PickupToggle) true
           (heap (pickup_toggle true main_form))).
  reflexivity.
Defined.

(** X10: a sender without an [is_checked] attribute (any component but the
    two checkboxes, a checkbox never toggled, an object that lacks it)
    counts as unchecked: its [pickup_toggled] activates the three delivery
    components, also while the pickup checkbox is checked, and its
    [recipient_checkbox_toggled] hides both inputs and makes them
    optional. *)
Theorem sender_without_attribute_counts_as_unchecked (sender : Sender) (w : Form) :
  hasattr_is_checked sender w = false ->
  (let w' := heap (notify sender "pickup_toggled" w) in
   is_active (base DateSelector w') = true /\
   is_active (base TimeSlotList w') = true /\
   is_active (base RecipientToggle w') = true /\
   pc_is_checked (pickup_cb w') = pc_is_checked (pickup_cb w) /\
   forall f, is_visible (field f w') = is_visible (field f w)) /\
  (let w' := heap (notify sender "recipient_checkbox_toggled" w) in
   forall f, is_visible (field f w') = false /\ is_required (field f w') = false).
Proof.
  intros Hn.
  assert (Hv : outcome (getattr_is_checked sender w) = inr false).
  { destruct sender as [[]|[b|]]; cbn in Hn |- *; try reflexivity;
      try discriminate Hn.
    - destruct (rc_is_checked (recipient_cb w)); [discriminate Hn|reflexivity].
    - destruct (pc_is_checked (pickup_cb w)); [discriminate Hn|reflexivity]. }
  destruct (notify_handlers_heap sender false w Hv) as (Hr & Hd & Ht & Hrc & Hf).
  split; [|exact Hr].
  cbn zeta. repeat split; try assumption.
  - f_equal. apply notify_pickup_cb.
  - apply Hf.
Qed.

Lemma sender_without_attribute_counts_as_unchecked_witness :
  let w := heap ((recipient_toggle true ;; pickup_toggle true) main_form) in
  (let w' := heap (notify (from_component DateSelector) "pickup_toggled" w) in
   is_active (base DateSelector w') = true /\
   is_active (base TimeSlotList w') = true /\
   is_active (base RecipientToggle w') = true /\
   pc_is_checked (pickup_cb w') = pc_is_checked (pickup_cb w) /\
   forall f, is_visible (field f w') = is_visible (field f w)) /\
  (let w' := heap (notify (from_component DateSelector)
                     "recipient_checkbox_toggled" w) in
   forall f, is_visible (field f w') = false /\ is_required (field f w') = false).
Proof.
  apply (sender_without_attribute_counts_as_unchecked
           (from_component DateSelector)
           (heap ((recipient_toggle true ;; pickup_toggle true) main_form))).
  reflexivity.
Defined.

(** ** What every reachable state satisfies *)

(** X11: the delivery mode decides the three flags in both directions.
    In every state reached from a freshly constructed form without direct
    calls of [set_active], the date picker, the time slots and the
    recipient checkbox are all active when the pickup checkbox is
    unchecked or was never toggled, and all inactive when it is checked. *)
Theorem delivery_flags_are_not_pickup (name phone : string) (ops : list Op) :
  forallb (fun op => negb (is_set_active op)) ops = true ->
  let w := heap (run_ops ops (new_form name phone)) in
  let pickup := checked_or_false (pc_is_checked (pickup_cb w)) in
  is_active (base DateSelector w) = negb pickup /\
  is_active (base TimeSlotList w) = negb pickup /\
  is_active (base RecipientToggle w) = negb pickup.
Proof.
  intros Hall w.
  assert (H : outcome (run_ops ops (new_form name phone)) = inr tt /\
              wired w /\ delivery_follows_pickup w).
  { apply run_ops_invariant with (allowed := fun op => negb (is_set_active op)).
    - intros op w0 Hop. apply negb_true_iff in Hop.
      now apply delivery_follows_pickup_step.
    - exact Hall.
    - apply new_form_wired.
    - repeat split. }
  destruct H as (_ & _ & Hinv). exact Hinv.
Qed.

Lemma delivery_flags_are_not_pickup_witness :
  let w := heap (run_ops [op_pickup_toggle true; op_recipient_toggle true;
                          op_pickup_toggle false; op_set_required Name true]
                         main_form) in
  let pickup := checked_or_false (pc_is_checked (pickup_cb w)) in
  is_active (base DateSelector w) = negb pickup /\
  is_active (base TimeSlotList w) = negb pickup /\
  is_active (base RecipientToggle w) = negb pickup.
Proof.
  apply (delivery_flags_are_not_pickup "Ім'я" "Телефон"
           [op_pickup_toggle true; op_recipient_toggle true;
            op_pickup_toggle false; op_set_required Name true]).
  reflexivity.
Defined.

(** X12: the two inputs move together.  In every state reached from a
    freshly constructed form without direct calls of their setters, the
    name and the phone input have the same [is_visible] and the same
    [is_required], [is_required] is the recipient checkbox's value
    ([False] before the first toggle), and an input is shown only if it is
    required. *)
Theorem inputs_move_together (name phone : string) (ops : list Op) :
  forallb (fun op => negb (is_field_setter op)) ops = true ->
  let w := heap (run_ops ops (new_form name phone)) in
  is_visible (field Name w) = is_visible (field Phone w) /\
  is_required (field Name w) = is_required (field Phone w) /\
  is_required (field Name w) = checked_or_false (rc_is_checked (recipient_cb w)) /\
  (is_visible (field Name w) = true -> is_required (field Name w) = true).
Proof.
  intros Hall w.
  assert (H : outcome (run_ops ops (new_form name phone)) = inr tt /\
              wired w /\ fields_follow_recipient w).
  { apply run_ops_invariant with (allowed := fun op => negb (is_field_setter op)).
    - intros op w0 Hop. apply negb_true_iff in Hop.
      now apply fields_follow_recipient_step.
    - exact Hall.
    - apply new_form_wired.
    - repeat split. discriminate. }
  destruct H as (_ & _ & Hn & Hp & Hv & Hc).
  cbn zeta in Hn, Hp, Hc.
  repeat split; try assumption.
  - now rewrite Hn, Hp.
  - intros Hvis. rewrite Hn. auto.
Qed.

Lemma inputs_move_together_witness :
  let w := heap (run_ops [op_recipient_toggle true; op_pickup_toggle true;
                          op_set_active RecipientToggle true;
                          op_recipient_toggle true]
                         main_form) in
  is_visible (field Name w) = is_visible (field Phone w) /\
  is_required (field Name w) = is_required (field Phone w) /\
  is_required (field Name w) = checked_or_false (rc_is_checked (recipient_cb w)) /\
  (is_visible (field Name w) = true -> is_required (field Name w) = true).
Proof.
  apply (inputs_move_together "Ім'я" "Телефон"
           [op_recipient_toggle true; op_pickup_toggle true;
            op_set_active RecipientToggle true; op_recipient_toggle true]).
  reflexivity.
Defined.

Lemma pickup_hides_fields_step (op : Op) (w : Form) :
  is_set_active op = false ->
  is_set_visibility op = false ->
  wired w ->
  delivery_follows_pickup w /\ pickup_hides_fields w ->
  delivery_follows_pickup (heap (run_op op w)) /\
  pickup_hides_fields (heap (run_op op w)).
Proof.
  intros Ha Hs Hw [Hd Hh].
  split; [now apply delivery_follows_pickup_step|].
  unfold pickup_hides_fields in *.
  destruct op as [d|b|b|c s|f v|f v|]; try discriminate; cbn [run_op].
  - destruct (select_date_heap w Hw d) as [_ ->]. exact Hh.
  - destruct (is_active (base RecipientToggle w)) eqn:Hact.
    + destruct (recipient_toggle_active_heap w Hw b Hact) as (_ & _ & _ & -> & _).
      destruct Hd as (_ & _ & Hr). rewrite Hact in Hr.
      intros Hp. rewrite Hp in Hr. discriminate Hr.
    + destruct (recipient_toggle_inactive b w Hact) as (_ & -> & _). exact Hh.
  - destruct (pickup_toggle_heap w Hw b) as (_ & _ & -> & _ & _ & _ & _ & Hf).
    cbn [checked_or_false]. intros ->.
    split; apply Hf.
  - destruct f; exact Hh.
  - destruct (update_available_slots_heap w) as (_ & -> & _). exact Hh.
Qed.

(** X13: while pickup is chosen the recipient inputs stay hidden.  In
    every state reached from a freshly constructed form without direct
    calls of [set_active] and [set_visibility], a checked pickup checkbox
    implies that neither input is visible. *)
Theorem pickup_keeps_inputs_hidden (name phone : string) (ops : list Op) :
  forallb (fun op => negb (is_set_active op) && negb (is_set_visibility op)) ops
    = true ->
  let w := heap (run_ops ops (new_form name phone)) in
  pc_is_checked (pickup_cb w) = Some true ->
  is_visible (field Name w) = false /\ is_visible (field Phone w) = false.
Proof.
  intros Hall w.
  assert (H : outcome (run_ops ops (new_form name phone)) = inr tt /\
              wired w /\ (delivery_follows_pickup w /\ pickup_hides_fields w)).
  { apply run_ops_invariant with
      (allowed := fun op => negb (is_set_active op) && negb (is_set_visibility op))
      (I := fun w0 => delivery_follows_pickup w0 /\ pickup_hides_fields w0).
    - intros op w0 Hop. apply andb_true_iff in Hop as [H1 H2].
      apply negb_true_iff in H1, H2.
      now apply pickup_hides_fields_step.
    - exact Hall.
    - apply new_form_wired.
    - split; [repeat split|]. intros Hp. discriminate Hp. }
  destruct H as (_ & _ & _ & Hh).
  intros Hp. apply Hh. rewrite Hp. reflexivity.
Qed.

Lemma pickup_keeps_inputs_hidden_witness :
  let w := heap (run_ops [op_recipient_toggle true; op_pickup_toggle true;
                          op_recipient_toggle true; op_set_required Phone false]
                         main_form) in
  is_visible (field Name w) = false /\ is_visible (field Phone w) = false.
Proof.
  apply (pickup_keeps_inputs_hidden "Ім'я" "Телефон"
           [op_recipient_toggle true; op_pickup_toggle true;
            op_recipient_toggle true; op_set_required Phone false]);
    reflexivity.
Defined.

(** ** How the calls compose *)

(** X14: under pickup the delivery controls refuse.  On a wired form,
    right after the pickup's [toggle(True)], [select_date] and the
    recipient's [toggle] return normally, change no object, notify nobody
    and print their one line of refusal; [update_available_slots] changes
    nothing and prints nothing. *)
Theorem pickup_blocks_delivery_controls (d : date) (v : bool) (w : Form) :
  wired w ->
  let w1 := heap (pickup_toggle true w) in
  (let r := select_date d w1 in
   outcome r = inr tt /\ heap r = w1 /\ count is_notify (trace r) = 0 /\
   printed (trace r) =
     ["[DatePicker]: Неможливо обрати дату, компонент неактивний."]) /\
  (let r := recipient_toggle v w1 in
   outcome r = inr tt /\ heap r = w1 /\ count is_notify (trace r) = 0 /\
   printed (trace r) = ["[RecipientCheckbox]: Чекбокс заблоковано."]) /\
  (let r := update_available_slots w1 in
   outcome r = inr tt /\ heap r = w1 /\ printed (trace r) = []).
Proof.
  intros Hw.
  destruct (pickup_toggle_heap w Hw true) as (_ & _ & _ & Hd & Ht & Hr & _).
  cbn zeta.
  generalize dependent (heap (pickup_toggle true w)). intros w1 Hd Ht Hr.
  cbn in Hd, Ht, Hr |- *. rewrite Hd, Ht, Hr. repeat split.
Qed.

Lemma pickup_blocks_delivery_controls_witness :
  let w1 := heap (pickup_toggle true (heap (recipient_toggle true main_form))) in
  (let r := select_date (mkdate 2025 10 25) w1 in
   outcome r = inr tt /\ heap r = w1 /\ count is_notify (trace r) = 0 /\
   printed (trace r) =
     ["[DatePicker]: Неможливо обрати дату, компонент неактивний."]) /\
  (let r := recipient_toggle false w1 in
   outcome r = inr tt /\ heap r = w1 /\ count is_notify (trace r) = 0 /\
   printed (trace r) = ["[RecipientCheckbox]: Чекбокс заблоковано."]) /\
  (let r := update_available_slots w1 in
   outcome r = inr tt /\ heap r = w1 /\ printed (trace r) = []).
Proof.
  apply (pickup_blocks_delivery_controls (mkdate 2025 10 25) false
           (heap (recipient_toggle true main_form))).
  intros []; reflexivity.
Defined.

(** X15: repeating a toggle changes nothing more, and the last value
    wins where the handler overwrites.  On a wired form the pickup's
    [toggle(a)] twice leaves the form as once, and [toggle(True)] after
    any pickup toggle leaves it as [toggle(True)] alone; with the recipient
    checkbox active, its [toggle(a)] then [toggle(b)] leaves the form as
    [toggle(b)] alone. *)
Theorem last_toggle_wins (a b : bool) (w : Form) :
  wired w ->
  heap ((pickup_toggle a ;; pickup_toggle a) w) = heap (pickup_toggle a w) /\
  heap ((pickup_toggle a ;; pickup_toggle true) w) = heap (pickup_toggle true w) /\
  (is_active (base RecipientToggle w) = true ->
   heap ((recipient_toggle a ;; recipient_toggle b) w) =
   heap (recipient_toggle b w)).
Proof.
  intros Hw.
  pose proof (Hw PickupToggle) as Ep. pose proof (Hw RecipientToggle) as Er.
  split_form w. cbn in Ep, Er. subst.
  split; [|split].
  - destruct a; reflexivity.
  - destruct a; reflexivity.
  - intros Ha. cbn in Ha. subst. reflexivity.
Qed.

Lemma last_toggle_wins_witness :
  let w := heap (recipient_toggle true main_form) in
  heap ((pickup_toggle false ;; pickup_toggle false) w) =
  heap (pickup_toggle false w) /\
  heap ((pickup_toggle false ;; pickup_toggle true) w) =
  heap (pickup_toggle true w) /\
  heap ((recipient_toggle false ;; recipient_toggle true) w) =
  heap (recipient_toggle true w).
Proof.
  destruct (last_toggle_wins false true (heap (recipient_toggle true main_form)))
    as (H1 & H2 & H3).
  - intros []; reflexivity.
  - split; [exact H1|]. split; [exact H2|]. apply H3. reflexivity.
Defined.

(** X16: the way back from pickup does not show the inputs again.  On a
    wired form, after the pickup's [toggle(True)] then [toggle(False)]
    both inputs are hidden, whatever they were, while [is_required] and the
    recipient checkbox's [is_checked] are as before; a new
    [toggle(True)] of the recipient checkbox, active again, shows them. *)
Theorem pickup_round_trip_hides_inputs (w : Form) :
  wired w ->
  (let r := (pickup_toggle true ;; pickup_toggle false) w in
   rc_is_checked (recipient_cb (heap r)) = rc_is_checked (recipient_cb w) /\
   forall f,
     is_visible (field f (heap r)) = false /\
     is_required (field f (heap r)) = is_required (field f w)) /\
  (let r := (pickup_toggle true ;; pickup_toggle false ;; recipient_toggle true) w in
   outcome r = inr tt /\
   forall f, is_visible (field f (heap r)) = true).
Proof.
  intros Hw.
  destruct (pickup_toggle_heap w Hw true) as (Ho1 & Hw1 & _ & _ & _ & _ & Hc1 & Hf1).
  destruct (pickup_toggle_heap _ Hw1 false)
    as (Ho2 & Hw2 & _ & _ & _ & Ha2 & Hc2 & Hf2).
  destruct (recipient_toggle_active_heap _ Hw2 true Ha2) as (Ho3 & _ & _ & _ & _ & Hf3).
  cbn zeta in *.
  split.
  - rewrite (heap_bind_ok _ _ _ _ Ho1).
    split; [congruence|].
    intros f. destruct (Hf2 f) as [-> ->]. destruct (Hf1 f) as [-> ->]. auto.
  - rewrite (outcome_bind_ok _ _ _ _ Ho1), (heap_bind_ok _ _ _ _ Ho1).
    rewrite (outcome_bind_ok _ _ _ _ Ho2), (heap_bind_ok _ _ _ _ Ho2).
    split; [exact Ho3|]. intros f. apply Hf3.
Qed.

Lemma pickup_round_trip_hides_inputs_witness :
  let w := heap (recipient_toggle true main_form) in
  (let r := (pickup_toggle true ;; pickup_toggle false) w in
   rc_is_checked (recipient_cb (heap r)) = rc_is_checked (recipient_cb w) /\
   forall f,
     is_visible (field f (heap r)) = false /\
     is_required (field f (heap r)) = is_required (field f w)) /\
  (let r := (pickup_toggle true ;; pickup_toggle false ;; recipient_toggle true) w in
   outcome r = inr tt /\
   forall f, is_visible (field f (heap r)) = true).
Proof.
  apply (pickup_round_trip_hides_inputs (heap (recipient_toggle true main_form))).
  intros []; reflexivity.
Defined.

(** ** Flags and setters *)

(** X17: [set_active] writes one flag and nothing else.  It returns
    normally, notifies nobody, prints one line, leaves the component with
    the given status and its mediator, and leaves every other component
    and every other attribute as they were; of two calls on one component
    the last one decides. *)
Theorem set_active_writes_one_flag (c : Component) (s s' : bool) (w : Form) :
  let r := set_active c s w in
  outcome r = inr tt /\
  count is_notify (trace r) = 0 /\
  List.length (printed (trace r)) = 1 /\
  is_active (base c (heap r)) = s /\
  mediator (base c (heap r)) = mediator (base c w) /\
  (forall c', c' <> c -> base c' (heap r) = base c' w) /\
  rc_is_checked (recipient_cb (heap r)) = rc_is_checked (recipient_cb w) /\
  pc_is_checked (pickup_cb (heap r)) = pc_is_checked (pickup_cb w) /\
  (forall f,
     field_name (field f (heap r)) = field_name (field f w) /\
     is_visible (field f (heap r)) = is_visible (field f w) /\
     is_required (field f (heap r)) = is_required (field f w)) /\
  heap ((set_active c s' ;; set_active c s) w) = heap r.
Proof.
  destruct c; cbn; repeat split;
    try (intros [] Hne; try reflexivity; contradiction Hne; reflexivity);
    destruct f; reflexivity.
Qed.

(** X18: the [is_active] flag of an input and of the pickup checkbox is
    never read.  Setting it to any value before any call changes neither
    the outcome of the call nor its trace (what it prints, what it calls),
    and a call other than [set_active] gives the same form as when the
    flag is set afterwards. *)
Theorem unread_active_flags (c : Component) (s : bool) (op : Op) (w : Form) :
  c = NameField \/ c = PhoneField \/ c = PickupToggle ->
  let w' := heap (set_active c s w) in
  outcome (run_op op w') = outcome (run_op op w) /\
  trace (run_op op w') = trace (run_op op w) /\
  (is_set_active op = false ->
   heap (run_op op w') = heap (set_active c s (heap (run_op op w)))).
Proof.
  intros Hc. split_form w.
  destruct Hc as [-> | [-> | ->]];
    destruct op as [d|b|b|c' s'|f v|f v|]; cbn;
    repeat match goal with
           | |- context [negb ?a] => is_var a; destruct a; cbn
           | |- context [match ?m with Some _ => _ | None => _ end] =>
               is_var m; destruct m as [[]|]; cbn
           end;
    try (destruct b; cbn);
    try (destruct f; cbn);
    repeat split; try reflexivity; try discriminate.
  all: destruct c'; cbn; reflexivity.
Qed.

Lemma unread_active_flags_witness :
  let w := heap (recipient_toggle true main_form) in
  let w' := heap (set_active PickupToggle false w) in
  outcome (run_op (op_pickup_toggle true) w') =
  outcome (run_op (op_pickup_toggle true) w) /\
  trace (run_op (op_pickup_toggle true) w') =
  trace (run_op (op_pickup_toggle true) w) /\
  heap (run_op (op_pickup_toggle true) w') =
  heap (set_active PickupToggle false (heap (run_op (op_pickup_toggle true) w))).
Proof.
  destruct (unread_active_flags PickupToggle false (op_pickup_toggle true)
              (heap (recipient_toggle true main_form))) as (Ho & Ht & Hh).
  - right. right. reflexivity.
  - split; [exact Ho|]. split; [exact Ht|]. apply Hh. reflexivity.
Defined.

(** X19: the setters of the inputs do not interfere.  A setter returns
    normally, notifies nobody and changes its one attribute of its one
    input: the other attribute, the other input, the input's name and
    [is_active] flag and the rest of the form stay; setting twice keeps
    the last value, and [set_visibility] and [set_required] can be called
    in either order, on the same input or on different ones. *)
Theorem input_setters_are_independent
    (f g : Field) (v v' r : bool) (w : Form) :
  (let w' := heap (set_visibility f v w) in
   outcome (set_visibility f v w) = inr tt /\
   count is_notify (trace (set_visibility f v w)) = 0 /\
   is_required (field f w') = is_required (field f w) /\
   field_name (field f w') = field_name (field f w) /\
   ri_base (field f w') = ri_base (field f w) /\
   (g <> f -> field g w' = field g w) /\
   date_picker w' = date_picker w /\ time_slots w' = time_slots w /\
   recipient_cb w' = recipient_cb w /\ pickup_cb w' = pickup_cb w) /\
  (let w' := heap (set_required f r w) in
   outcome (set_required f r w) = inr tt /\
   count is_notify (trace (set_required f r w)) = 0 /\
   is_visible (field f w') = is_visible (field f w) /\
   field_name (field f w') = field_name (field f w) /\
   ri_base (field f w') = ri_base (field f w) /\
   (g <> f -> field g w' = field g w) /\
   date_picker w' = date_picker w /\ time_slots w' = time_slots w /\
   recipient_cb w' = recipient_cb w /\ pickup_cb w' = pickup_cb w) /\
  heap ((set_visibility f v' ;; set_visibility f v) w) =
  heap (set_visibility f v w) /\
  heap ((set_visibility f v ;; set_required g r) w) =
  heap ((set_required g r ;; set_visibility f v) w).
Proof.
  destruct f, g; cbn; repeat split; try reflexivity;
    intros Hne; contradiction Hne; reflexivity.
Qed.
